(** * NBA games dashboard: the statistics queries of [main.py]

    A shallow embedding of the loader, the main page and the six query
    handlers of [main.py] and of the pandas operations they call,
    followed by the properties of the queries.

    Conventions of the embedding.
    - The module-level DataFrame [df] is a list of rows in index order;
      every handler takes it as an explicit argument.
    - A boolean mask [df[df[c] == v]] is stdpp's [filter] with the same
      predicate; [len] is [length].
    - Counts are [nat], the integer columns are [Z]; the one sum of two
      int64 columns, [totalPoints], wraps around as int64.
    - A float64 value is a [npfloat]: an exact rational, an infinity or
      NaN.  Rounding is not modelled; what numpy does at a zero divisor
      is.
    - A handler returns the values it computes, before the f-string
      formatting of the template context. *)

From Stdlib Require Import ZArith QArith.
From stdpp Require Import base tactics option list sorting strings gmap.

Local Open Scope Z_scope.

(** ** float64 values *)

Module Float.

Inductive npfloat : Type :=
| Real (q : Q)
| PInf
| NInf
| NaN.

Definition of_Z (z : Z) : npfloat := Real (inject_Z z).
Definition of_nat (n : nat) : npfloat := of_Z (Z.of_nat n).

(** -1, 0 or 1. *)
Definition sgn (q : Q) : Z := Z.sgn (Qnum q).

Definition inf_of_sign (s : Z) : npfloat :=
  match s with
  | Z0 => NaN
  | Zpos _ => PInf
  | Zneg _ => NInf
  end.

Definition fsign (x : npfloat) : Z :=
  match x with
  | Real q => sgn q
  | PInf => 1
  | NInf => -1
  | NaN => 0
  end.

Definition fadd (x y : npfloat) : npfloat :=
  match x, y with
  | NaN, _ | _, NaN => NaN
  | Real a, Real b => Real (a + b)
  | PInf, NInf | NInf, PInf => NaN
  | PInf, _ | _, PInf => PInf
  | NInf, _ | _, NInf => NInf
  end.

Definition fmul (x y : npfloat) : npfloat :=
  match x, y with
  | NaN, _ | _, NaN => NaN
  | Real a, Real b => Real (a * b)
  | _, _ => inf_of_sign (fsign x * fsign y)
  end.

(** numpy's true division: a zero divisor gives an infinity, or NaN for
    0/0, with a RuntimeWarning and no exception. *)
Definition fdiv (x y : npfloat) : npfloat :=
  match x, y with
  | NaN, _ | _, NaN => NaN
  | Real a, Real b =>
      if Qeq_bool b 0 then inf_of_sign (sgn a) else Real (a / b)
  | Real _, _ => Real 0
  | _, Real b => inf_of_sign (fsign x * (if Qeq_bool b 0 then 1 else sgn b))
  | _, _ => NaN
  end.

Definition sum_Z (xs : list Z) : Z := foldr Z.add 0 xs.

(** [Series.mean()]: NaN on an empty column. *)
Definition mean (xs : list Z) : npfloat :=
  match xs with
  | [] => NaN
  | _ :: _ => Real (inject_Z (sum_Z xs) / inject_Z (Z.of_nat (length xs)))
  end.

End Float.
Import Float.

(** ** Rows of the DataFrame *)

(** The calendar date of a pandas [Timestamp] (years 1677 to 2262, months
    1 to 12, days 1 to 31); the handlers do not read the time of day. *)
Record Timestamp : Type := mk_Timestamp {
  ts_year : Z;
  ts_month : Z;
  ts_day : Z
}.

(** The decimal digit of a number from 0 to 9. *)
Definition digit (d : Z) : string :=
  match d with
  | 0 => "0" | 1 => "1" | 2 => "2" | 3 => "3" | 4 => "4"
  | 5 => "5" | 6 => "6" | 7 => "7" | 8 => "8" | _ => "9"
  end%string.

(** [%m] and [%d]: two digits, padded with a zero. *)
Definition pad2 (n : Z) : string :=
  (digit (n / 10 mod 10) ++ digit (n mod 10))%string.

(** [%Y]: four digits. *)
Definition pad4 (n : Z) : string :=
  (pad2 (n / 100) ++ pad2 n)%string.

(** [strftime("%Y-%m-%d")]. *)
Definition strftime_ymd (t : Timestamp) : string :=
  (pad4 (ts_year t) ++ "-" ++ pad2 (ts_month t) ++ "-" ++ pad2 (ts_day t))%string.

(** An int64 sum: pandas adds two int64 columns without a check, so the
    result wraps around. *)
Definition wrap_int64 (z : Z) : Z := (z + 2 ^ 63) mod 2 ^ 64 - 2 ^ 63.

(** The values an int64 holds. *)
Definition int64_range (z : Z) : Prop := - 2 ^ 63 ≤ z < 2 ^ 63.

(** A row of [games1946-2025.csv] as [read_csv] and [to_datetime] give
    it: [datetime] is [None] (NaT) for a date that does not parse,
    [Winner] is [None] for a missing value. *)
Record csv_row : Type := mk_csv_row {
  csv_game_id : Z;
  csv_datetime : option Timestamp;
  csv_seasonStartYear : Z;
  csv_homeTeam : string;
  csv_awayTeam : string;
  csv_pointsHome : Z;
  csv_pointsAway : Z;
  csv_Winner : option string;
  csv_isRegular : Z
}.

Record game : Type := mk_game {
  game_id : Z;
  datetime : option Timestamp;
  seasonStartYear : Z;
  homeTeam : string;
  awayTeam : string;
  pointsHome : Z;
  pointsAway : Z;
  Winner : option string;
  isRegular : Z;
  totalPoints : Z
}.

(** The frame [df]: its rows in index order. *)
Abbreviation DataFrame := (list game) (only parsing).

Definition with_totalPoints (r : csv_row) : game :=
  {| game_id := csv_game_id r;
     datetime := csv_datetime r;
     seasonStartYear := csv_seasonStartYear r;
     homeTeam := csv_homeTeam r;
     awayTeam := csv_awayTeam r;
     pointsHome := csv_pointsHome r;
     pointsAway := csv_pointsAway r;
     Winner := csv_Winner r;
     isRegular := csv_isRegular r;
     totalPoints := wrap_int64 (csv_pointsHome r + csv_pointsAway r) |}.

Definition load_data (csv : list csv_row) : DataFrame :=
  with_totalPoints <$> filter (λ r, 2000 ≤ csv_seasonStartYear r) csv.

(** ** pandas operations *)

Module Pandas.

Section Generic.
Context {A : Type} `{EqDecision A}.

(** [Series.unique()]: the distinct values in order of first
    appearance. *)
Fixpoint unique (l : list A) : list A :=
  match l with
  | [] => []
  | x :: l' => x :: filter (λ y, y ≠ x) (unique l')
  end.

(** Number of positions of [l] holding [x]. *)
Definition count (x : A) (l : list A) : nat :=
  length (filter (λ y, y = x) l).
End Generic.

Section Sorting.
Context {A : Type} (key : A → Z).

(** Smaller keys first. *)
Definition asc (a b : A) : Prop := key a ≤ key b.
(** Larger keys first. *)
Definition desc (a b : A) : Prop := key b ≤ key a.

(** Stable insertion, ascending in [key]: [x] comes from the left of
    the elements of [l] and stays before those with an equal key. *)
Fixpoint insert_asc (x : A) (l : list A) : list A :=
  match l with
  | [] => [x]
  | y :: l' =>
      if decide (key x ≤ key y) then x :: y :: l'
      else y :: insert_asc x l'
  end.

Definition sort_asc (l : list A) : list A := foldr insert_asc [] l.

(** Stable insertion, descending in [key]. *)
Fixpoint insert_desc (x : A) (l : list A) : list A :=
  match l with
  | [] => [x]
  | y :: l' =>
      if decide (key y ≤ key x) then x :: y :: l'
      else y :: insert_desc x l'
  end.

Definition sort_desc (l : list A) : list A := foldr insert_desc [] l.

(** [DataFrame.nlargest(n, column)] with the default [keep='first']:
    descending in the column, the first occurrences first among equal
    values. *)
Definition nlargest (n : nat) (l : list A) : list A :=
  take n (sort_desc l).
End Sorting.

(** Python's [sorted] on integers. *)
Definition sorted (l : list Z) : list Z := sort_asc id l.

(** [Series.dropna()]. *)
Definition dropna {A : Type} (col : list (option A)) : list A :=
  omap id col.

(** An entry of [value_counts] is ordered by its count. *)
Definition by_count (kc : string * nat) : Z := Z.of_nat kc.2.

(** [Series.value_counts()]: missing values dropped, one entry per
    distinct value with its number of occurrences, largest count first.
    pandas does not say in which order equal counts come; here they
    keep the order of first appearance. *)
Definition value_counts (col : list (option string)) : list (string * nat) :=
  let vals := dropna col in
  sort_desc by_count ((λ k, (k, count k vals)) <$> unique vals).

(** [l[-n:]] for a positive [n]. *)
Definition last_n {A : Type} (n : nat) (l : list A) : list A :=
  drop (length l - n) l.

End Pandas.
Import Pandas.

(** ** [get_overview] *)

Record overview : Type := mk_overview {
  total_games : nat;
  avg_home_points : npfloat;
  avg_away_points : npfloat;
  home_win_rate : npfloat
}.

Definition home_won (r : game) : Prop := pointsAway r < pointsHome r.
Definition away_won (r : game) : Prop := pointsHome r < pointsAway r.

#[global] Instance home_won_dec r : Decision (home_won r) := _.
#[global] Instance away_won_dec r : Decision (away_won r) := _.

Definition get_overview (df : DataFrame) : overview :=
  let total_games := length df in
  let avg_home_points := mean (pointsHome <$> df) in
  let avg_away_points := mean (pointsAway <$> df) in
  let home_wins := length (filter home_won df) in
  let home_win_rate :=
    fmul (fdiv (of_nat home_wins) (of_nat total_games)) (of_Z 100) in
  {| total_games := total_games;
     avg_home_points := avg_home_points;
     avg_away_points := avg_away_points;
     home_win_rate := home_win_rate |}.

(** ** [get_season_trend] *)

Record season_stat : Type := mk_season_stat {
  ss_season : Z;
  ss_avg_home : npfloat;
  ss_avg_away : npfloat;
  ss_avg_total : npfloat;
  ss_games : nat
}.

(** The rows of one season, the group of [groupby("seasonStartYear")]. *)
Definition in_season (season : Z) (data : DataFrame) : DataFrame :=
  filter (λ r, seasonStartYear r = season) data.

(** [groupby] sorts the group keys; ["count"] counts the [game_id]s of the
    group, none of which is missing. *)
Definition get_season_trend (df : DataFrame) : list season_stat :=
  (λ season,
     let group := in_season season df in
     {| ss_season := season;
        ss_avg_home := mean (pointsHome <$> group);
        ss_avg_away := mean (pointsAway <$> group);
        ss_avg_total := mean (totalPoints <$> group);
        ss_games := length (game_id <$> group) |})
  <$> sorted (unique (seasonStartYear <$> df)).

(** ** [get_team_rankings] *)

Record ranking : Type := mk_ranking {
  rk_team : string;
  rk_wins : nat;
  rk_games : nat;
  rk_win_rate : npfloat
}.

Record team_rankings : Type := mk_team_rankings {
  rankings : list ranking;
  selected_season : option Z
}.

(** [if season:] on an [Optional[int]]: [None] and [0] are false. *)
Definition truthy (season : option Z) : bool :=
  match season with
  | None => false
  | Some s => bool_decide (s ≠ 0)
  end.

(** The frame [data] the rankings are computed on. *)
Definition season_data (df : DataFrame) (season : option Z) : DataFrame :=
  match season with
  | Some s => if truthy season then in_season s df else df
  | None => df
  end.

Definition home_games (team : string) (data : DataFrame) : nat :=
  length (filter (λ r, homeTeam r = team) data).

Definition away_games (team : string) (data : DataFrame) : nat :=
  length (filter (λ r, awayTeam r = team) data).

(** The first loop: one dictionary entry per team of [wins.index]. *)
Definition total_games_of (data : DataFrame) (teams : list string)
  : gmap string nat :=
  foldl (λ d team, <[team := (home_games team data + away_games team data)%nat]> d)
        ∅ teams.

Definition ranking_row (total_games_by_team : gmap string nat)
    (entry : string * nat) : ranking :=
  let '(team, win_count) := entry in
  let total := default 1%nat (total_games_by_team !! team) in
  let win_rate :=
    if decide (0 < total)%nat
    then Real (inject_Z (Z.of_nat win_count) / inject_Z (Z.of_nat total) * 100)
    else Real 0 in
  {| rk_team := team; rk_wins := win_count; rk_games := total;
     rk_win_rate := win_rate |}.

Definition get_team_rankings (df : DataFrame) (season : option Z)
  : team_rankings :=
  let data := season_data df season in
  let wins := take 15 (value_counts (Winner <$> data)) in
  let total_games_by_team := total_games_of data wins.*1 in
  {| rankings := ranking_row total_games_by_team <$> wins;
     selected_season := season |}.

(** ** [get_high_scoring_games] *)

Record high_game : Type := mk_high_game {
  hg_date : option string;
  hg_home_team : string;
  hg_home_points : Z;
  hg_away_team : string;
  hg_away_points : Z;
  hg_total : Z;
  hg_season : Z
}.

Definition top_games (df : DataFrame) : DataFrame :=
  nlargest totalPoints 10 df.

Definition high_game_of (row : game) : high_game :=
  {| hg_date := strftime_ymd <$> datetime row;
     hg_home_team := homeTeam row;
     hg_home_points := pointsHome row;
     hg_away_team := awayTeam row;
     hg_away_points := pointsAway row;
     hg_total := totalPoints row;
     hg_season := seasonStartYear row |}.

Definition get_high_scoring_games (df : DataFrame) : list high_game :=
  high_game_of <$> top_games df.

(** ** [get_team_detail] *)

Record season_row : Type := mk_season_row {
  sr_season : Z;
  sr_wins : nat;
  sr_games : nat;
  sr_win_rate : npfloat
}.

Record team_detail : Type := mk_team_detail {
  td_team : string;
  td_total_wins : nat;
  td_total_games : nat;
  td_win_rate : npfloat;
  td_avg_points : npfloat;
  td_seasons : list season_row
}.

(** One turn of the season loop: the row appended, if any. *)
Definition season_entry (team_home team_away : DataFrame) (season : Z)
  : option season_row :=
  let season_home := in_season season team_home in
  let season_away := in_season season team_away in
  let wins := (length (filter home_won season_home)
               + length (filter away_won season_away))%nat in
  let games := (length season_home + length season_away)%nat in
  if decide (0 < games)%nat
  then Some {| sr_season := season; sr_wins := wins; sr_games := games;
               sr_win_rate :=
                 fmul (fdiv (of_nat wins) (of_nat games)) (of_Z 100) |}
  else None.

Definition get_team_detail (df : DataFrame) (team : string) : team_detail :=
  let team_home := filter (λ r, homeTeam r = team) df in
  let team_away := filter (λ r, awayTeam r = team) df in
  let home_wins := length (filter home_won team_home) in
  let away_wins := length (filter away_won team_away) in
  let total_wins := (home_wins + away_wins)%nat in
  let total_games := (length team_home + length team_away)%nat in
  let avg_points_home := mean (pointsHome <$> team_home) in
  let avg_points_away := mean (pointsAway <$> team_away) in
  let avg_points :=
    fdiv (fadd (fmul avg_points_home (of_nat (length team_home)))
               (fmul avg_points_away (of_nat (length team_away))))
         (of_nat (total_games `max` 1)) in
  let seasons_data :=
    omap (season_entry team_home team_away)
         (sorted (unique (seasonStartYear <$> df))) in
  {| td_team := team;
     td_total_wins := total_wins;
     td_total_games := total_games;
     td_win_rate :=
       fmul (fdiv (of_nat total_wins) (of_nat (total_games `max` 1)))
            (of_Z 100);
     td_avg_points := avg_points;
     td_seasons := last_n 10 seasons_data |}.

(** ** [get_playoffs_vs_regular] *)

Record partition_stats : Type := mk_partition_stats {
  ps_games : nat;
  ps_avg_total : npfloat;
  ps_avg_home : npfloat;
  ps_avg_away : npfloat;
  ps_home_win_rate : npfloat
}.

Record playoffs_vs_regular : Type := mk_playoffs_vs_regular {
  regular : partition_stats;
  playoffs : partition_stats
}.

Definition get_playoffs_vs_regular (df : DataFrame) : playoffs_vs_regular :=
  let regular := filter (λ r, isRegular r = 1) df in
  let playoffs := filter (λ r, isRegular r = 0) df in
  {| regular :=
       {| ps_games := length regular;
          ps_avg_total := mean (totalPoints <$> regular);
          ps_avg_home := mean (pointsHome <$> regular);
          ps_avg_away := mean (pointsAway <$> regular);
          ps_home_win_rate :=
            fmul (fdiv (of_nat (length (filter home_won regular)))
                       (of_nat (length regular)))
                 (of_Z 100) |};
     playoffs :=
       {| ps_games := length playoffs;
          ps_avg_total := mean (totalPoints <$> playoffs);
          ps_avg_home := mean (pointsHome <$> playoffs);
          ps_avg_away := mean (pointsAway <$> playoffs);
          ps_home_win_rate :=
            fmul (fdiv (of_nat (length (filter home_won playoffs)))
                       (of_nat (length playoffs `max` 1)))
                 (of_Z 100) |} |}.

(** ** The Dataset

    What the data model says of every record and the handlers rely on. *)

(** [isRegular] is a flag: 1 for the regular season, 0 for the playoffs. *)
Definition flag_ok (r : game) : Prop := isRegular r = 1 ∨ isRegular r = 0.

(** The winner of a game, when recorded, is one of its two teams. *)
Definition winner_played (r : game) : Prop :=
  match Winner r with
  | Some t => t = homeTeam r ∨ t = awayTeam r
  | None => True
  end.

#[global] Instance flag_ok_dec r : Decision (flag_ok r) := _.
#[global] Instance winner_played_dec r : Decision (winner_played r).
Proof. unfold winner_played. destruct (Winner r); apply _. Defined.

(** The observed range of seasons: from the earliest to the latest season
    of a record. *)
Definition in_observed_range (df : DataFrame) (s : Z) : Prop :=
  Exists (λ r, seasonStartYear r ≤ s) df ∧ Exists (λ r, s ≤ seasonStartYear r) df.

#[global] Instance in_observed_range_dec df s :
  Decision (in_observed_range df s) := _.

(** The wins of a team as [value_counts] tallies them: the rows naming it
    in [Winner]. *)
Definition win_count (team : string) (data : DataFrame) : nat :=
  length (filter (λ r, Winner r = Some team) data).

(** ** Sample data *)

Definition sample_game (id season : Z) (home : string) (ph : Z)
    (away : string) (pa : Z) (reg : Z) : game :=
  {| game_id := id; datetime := Some (mk_Timestamp 2020 1 1);
     seasonStartYear := season;
     homeTeam := home; awayTeam := away;
     pointsHome := ph; pointsAway := pa;
     Winner := if decide (pa < ph) then Some home else Some away;
     isRegular := reg; totalPoints := ph + pa |}.

(** The three games of the specification's scenario. *)
Definition sample_df : DataFrame :=
  [ sample_game 1 2020 "A" 100 "B" 90 1;
    sample_game 2 2020 "B" 95 "A" 99 1;
    sample_game 3 2021 "A" 110 "B" 108 0 ].

(** A file whose games were all played before 2000. *)
Definition old_csv : list csv_row :=
  [ {| csv_game_id := 1; csv_datetime := Some (mk_Timestamp 1999 11 2);
       csv_seasonStartYear := 1999;
       csv_homeTeam := "A"; csv_awayTeam := "B";
       csv_pointsHome := 101; csv_pointsAway := 99;
       csv_Winner := Some "A"%string; csv_isRegular := 1 |} ].

(** A file with a game before 2000 and two later ones. *)
Definition recent_csv : list csv_row :=
  [ {| csv_game_id := 1; csv_datetime := Some (mk_Timestamp 1999 11 2);
       csv_seasonStartYear := 1999;
       csv_homeTeam := "A"; csv_awayTeam := "B";
       csv_pointsHome := 101; csv_pointsAway := 99;
       csv_Winner := Some "A"%string; csv_isRegular := 1 |};
    {| csv_game_id := 2; csv_datetime := Some (mk_Timestamp 2003 12 5);
       csv_seasonStartYear := 2003;
       csv_homeTeam := "A"; csv_awayTeam := "B";
       csv_pointsHome := 88; csv_pointsAway := 97;
       csv_Winner := Some "B"%string; csv_isRegular := 1 |};
    {| csv_game_id := 3; csv_datetime := None;
       csv_seasonStartYear := 2004;
       csv_homeTeam := "B"; csv_awayTeam := "C";
       csv_pointsHome := 110; csv_pointsAway := 104;
       csv_Winner := Some "B"%string; csv_isRegular := 0 |} ].

(** ** [home] *)

Section SortBy.
Context {A : Type} (le : A → A → bool).

(** Stable insertion for an order given as a test. *)
Fixpoint insert_by (x : A) (l : list A) : list A :=
  match l with
  | [] => [x]
  | y :: l' => if le x y then x :: y :: l' else y :: insert_by x l'
  end.

Definition sort_by (l : list A) : list A := foldr insert_by [] l.
End SortBy.

(** Python's [sorted] on [str]: lexicographic in the code points. *)
Definition sorted_str (l : list string) : list string := sort_by String.leb l.

(** [sorted(..., reverse=True)] on integers. *)
Definition sorted_reverse (l : list Z) : list Z := sort_desc id l.

(** The two lists [home] hands to the page. *)
Record home_page : Type := mk_home_page {
  hp_seasons : list Z;
  hp_teams : list string
}.

Definition home (df : DataFrame) : home_page :=
  let seasons := sorted_reverse (unique (seasonStartYear <$> df)) in
  let teams := sorted_str (unique (dropna (Winner <$> df))) in
  {| hp_seasons := seasons; hp_teams := teams |}.

(** ** Columns that agree *)

(** [totalPoints] as [load_data] computes it. *)
Definition total_ok (r : game) : Prop :=
  totalPoints r = pointsHome r + pointsAway r.

(** A [Winner] column that follows the points: the home team when it
    scored more, the away team when it did, no winner for a tie. *)
Definition winner_by_points (r : game) : Prop :=
  Winner r = if decide (home_won r) then Some (homeTeam r)
             else if decide (away_won r) then Some (awayTeam r)
             else None.

(** A file row whose two scores add up within int64. *)
Definition scores_fit (c : csv_row) : Prop :=
  int64_range (csv_pointsHome c + csv_pointsAway c).

#[global] Instance scores_fit_dec c : Decision (scores_fit c).
Proof. unfold scores_fit, int64_range. apply _. Defined.

#[global] Instance total_ok_dec r : Decision (total_ok r) := _.
#[global] Instance winner_by_points_dec r : Decision (winner_by_points r) := _.

(** * Properties *)

(** ** float64 arithmetic on counts *)

Section FloatFacts.
Local Open Scope Q_scope.

Lemma inject_nat_pos (n : nat) : (0 < n)%nat → 0 < inject_Z (Z.of_nat n).
Proof. intros Hn. change 0 with (inject_Z 0). rewrite <- Zlt_Qlt. lia. Qed.

Lemma inject_nat_nonneg (n : nat) : 0 <= inject_Z (Z.of_nat n).
Proof. change 0 with (inject_Z 0). rewrite <- Zle_Qle. lia. Qed.

Lemma inject_nat_nonzero (n : nat) :
  (0 < n)%nat → ¬ inject_Z (Z.of_nat n) == 0.
Proof.
  intros Hn Heq. apply inject_nat_pos in Hn.
  rewrite Heq in Hn. by apply Qlt_irrefl in Hn.
Qed.

(** With a positive divisor the division is the rational quotient. *)
Lemma fdiv_count (w n : nat) :
  (0 < n)%nat →
  fdiv (of_nat w) (of_nat n)
  = Real (inject_Z (Z.of_nat w) / inject_Z (Z.of_nat n)).
Proof.
  intros Hn. unfold of_nat, of_Z, fdiv.
  destruct (Qeq_bool _ 0) eqn:Hz; [|done].
  apply Qeq_bool_eq in Hz. by apply inject_nat_nonzero in Hz.
Qed.

Lemma rate_count (w n : nat) :
  (0 < n)%nat →
  fmul (fdiv (of_nat w) (of_nat n)) (of_Z 100)
  = Real (inject_Z (Z.of_nat w) / inject_Z (Z.of_nat n) * 100).
Proof. intros Hn. by rewrite fdiv_count. Qed.

(** A part of a whole, as a percentage, is between 0 and 100. *)
Lemma percentage_bounds (w n : nat) :
  (0 < n)%nat → (w ≤ n)%nat →
  0 <= inject_Z (Z.of_nat w) / inject_Z (Z.of_nat n) * 100 <= 100.
Proof.
  intros Hn Hw. pose proof (inject_nat_pos n Hn) as Hpos.
  assert (0 <= inject_Z (Z.of_nat w) / inject_Z (Z.of_nat n)) as H0.
  { apply Qle_shift_div_l; [done|]. rewrite Qmult_0_l.
    apply inject_nat_nonneg. }
  assert (inject_Z (Z.of_nat w) / inject_Z (Z.of_nat n) <= 1) as H1.
  { apply Qle_shift_div_r; [done|]. rewrite Qmult_1_l.
    rewrite <- Zle_Qle. lia. }
  split.
  - apply Qmult_le_0_compat; [done|]. by vm_compute.
  - apply Qle_trans with (1 * 100); [|by vm_compute].
    apply Qmult_le_compat_r; [done|]. by vm_compute.
Qed.

Lemma mean_cons (x : Z) (xs : list Z) :
  ∃ q, mean (x :: xs) = Real q
       ∧ q * inject_Z (Z.of_nat (length (x :: xs)))
         == inject_Z (sum_Z (x :: xs)).
Proof.
  eexists; split; [done|].
  rewrite Qmult_comm. apply Qmult_div_r.
  apply inject_nat_nonzero. simpl. lia.
Qed.

(** The mean of a non-empty column is the sum over the count. *)
Lemma mean_fmap {A} (f : A → Z) (l : list A) :
  l ≠ [] →
  ∃ q, mean (f <$> l) = Real q
       ∧ q * inject_Z (Z.of_nat (length l)) == inject_Z (sum_Z (f <$> l)).
Proof.
  destruct l as [|a l]; [done|]. intros _.
  destruct (mean_cons (f a) (f <$> l)) as (q & Hq & Hsum).
  exists q. split; [done|].
  by rewrite <- (length_fmap f (a :: l)).
Qed.
End FloatFacts.

(** ** Masks and counts *)

(** Two masks of which every row satisfies exactly one split the frame. *)
Lemma length_filter_split {A} (P Q : A → Prop)
    `{!∀ x, Decision (P x)} `{!∀ x, Decision (Q x)} (l : list A) :
  (∀ x, x ∈ l → (P x ∧ ¬ Q x) ∨ (Q x ∧ ¬ P x)) →
  (length (filter P l) + length (filter Q l))%nat = length l.
Proof.
  induction l as [|x l IH]; intros Hl; [done|].
  rewrite !filter_cons.
  assert ((length (filter P l) + length (filter Q l))%nat = length l) as IH'.
  { apply IH. intros y Hy. apply Hl. by right. }
  destruct (Hl x) as [[HP HQ]|[HQ HP]]; [by left|..];
    repeat case_decide; try done; simpl; lia.
Qed.

(** ** The pandas operations *)

Section UniqueFacts.
Context {A : Type} `{EqDecision A}.
Implicit Types l : list A.

Lemma elem_of_unique l x : x ∈ unique l ↔ x ∈ l.
Proof.
  induction l as [|y l IH]; [done|]. simpl.
  rewrite !elem_of_cons, list_elem_of_filter, IH.
  destruct (decide (x = y)); tauto.
Qed.

Lemma NoDup_unique l : NoDup (unique l).
Proof.
  induction l as [|y l IH]; simpl; [constructor|].
  constructor; [|by apply NoDup_filter].
  rewrite list_elem_of_filter. by intros [Hy _].
Qed.
End UniqueFacts.

Section SortFacts.
Context {A : Type} (key : A → Z).
Implicit Types l : list A.

Lemma insert_desc_Permutation x l : insert_desc key x l ≡ₚ x :: l.
Proof.
  induction l as [|y l IH]; simpl; [done|].
  case_decide; [done|]. by rewrite IH, Permutation_swap.
Qed.

Lemma sort_desc_Permutation l : sort_desc key l ≡ₚ l.
Proof.
  induction l as [|x l IH]; simpl; [done|].
  by rewrite insert_desc_Permutation, IH.
Qed.

Lemma insert_desc_sorted x l :
  StronglySorted (desc key) l → StronglySorted (desc key) (insert_desc key x l).
Proof.
  induction 1 as [|y l Hl IH Hy]; simpl.
  - repeat constructor.
  - case_decide as Hxy.
    + constructor; [by constructor|]. constructor; [done|].
      eapply Forall_impl; [exact Hy|]. unfold desc. intros z Hz. simpl in *. lia.
    + constructor; [done|].
      rewrite insert_desc_Permutation. constructor; [|done].
      unfold desc. lia.
Qed.



Lemma sort_desc_sorted l : StronglySorted (desc key) (sort_desc key l).
Proof.
  induction l as [|x l IH]; simpl; [constructor|].
  by apply insert_desc_sorted.
Qed.

Lemma insert_asc_Permutation x l : insert_asc key x l ≡ₚ x :: l.
Proof.
  induction l as [|y l IH]; simpl; [done|].
  case_decide; [done|]. by rewrite IH, Permutation_swap.
Qed.

Lemma sort_asc_Permutation l : sort_asc key l ≡ₚ l.
Proof.
  induction l as [|x l IH]; simpl; [done|].
  by rewrite insert_asc_Permutation, IH.
Qed.

Lemma insert_asc_sorted x l :
  StronglySorted (asc key) l → StronglySorted (asc key) (insert_asc key x l).
Proof.
  induction 1 as [|y l Hl IH Hy]; simpl.
  - repeat constructor.
  - case_decide as Hxy.
    + constructor; [by constructor|]. constructor; [done|].
      eapply Forall_impl; [exact Hy|]. unfold asc. intros z Hz. simpl in *. lia.
    + constructor; [done|].
      rewrite insert_asc_Permutation. constructor; [|done].
      unfold asc. lia.
Qed.

Lemma sort_asc_sorted l : StronglySorted (asc key) (sort_asc key l).
Proof.
  induction l as [|x l IH]; simpl; [constructor|].
  by apply insert_asc_sorted.
Qed.

(** The head of a sorted list against its tail: every element kept by
    [take] is related to every element left behind. *)
Lemma sorted_take_drop (R : relation A) n l x y :
  StronglySorted R l → x ∈ take n l → y ∈ drop n l → R x y.
Proof.
  intros Hl. rewrite <- (take_drop n l) in Hl.
  by apply StronglySorted_app_1_elem_of.
Qed.

Lemma sorted_take (R : relation A) n l :
  StronglySorted R l → StronglySorted R (take n l).
Proof.
  intros Hl. rewrite <- (take_drop n l) in Hl.
  by apply StronglySorted_app_1_l in Hl.
Qed.

Lemma sorted_drop (R : relation A) n l :
  StronglySorted R l → StronglySorted R (drop n l).
Proof.
  intros Hl. rewrite <- (take_drop n l) in Hl.
  by apply StronglySorted_app_1_r in Hl.
Qed.
End SortFacts.

(** An ascending list without repetition is strictly ascending. *)
Lemma sorted_NoDup_lt (l : list Z) :
  StronglySorted Z.le l → NoDup l → StronglySorted Z.lt l.
Proof.
  induction 1 as [|x l Hl IH Hx]; intros Hnd; [constructor|].
  apply NoDup_cons in Hnd as [Hnx Hnd].
  constructor; [by apply IH|].
  apply Forall_forall. intros y Hy.
  rewrite Forall_forall in Hx. specialize (Hx y Hy).
  assert (x ≠ y) by (by intros ->). lia.
Qed.

(** [sorted(column.unique())]: the distinct values, strictly ascending. *)
Lemma sorted_unique_lt (l : list Z) : StronglySorted Z.lt (sorted (unique l)).
Proof.
  apply sorted_NoDup_lt.
  - apply (sort_asc_sorted id).
  - unfold sorted. rewrite sort_asc_Permutation. apply NoDup_unique.
Qed.

Lemma elem_of_sorted_unique (l : list Z) x : x ∈ sorted (unique l) ↔ x ∈ l.
Proof. unfold sorted. by rewrite sort_asc_Permutation, elem_of_unique. Qed.

(** ** Overview *)

Section Overview.
Local Open Scope Q_scope.

(** C1. [get_overview] reports the number of rows as [total_games]; on a
    non-empty frame the two averages are the sums of [pointsHome] and
    of [pointsAway] over the number of rows, and [home_win_rate] is the
    number of rows with [pointsHome > pointsAway] over the number of
    rows, times 100, a value between 0 and 100. *)
Theorem overview_stats (df : DataFrame) :
  total_games (get_overview df) = length df ∧
  (df ≠ [] →
   (∃ q, avg_home_points (get_overview df) = Real q
         ∧ q * inject_Z (Z.of_nat (length df))
           == inject_Z (sum_Z (pointsHome <$> df))) ∧
   (∃ q, avg_away_points (get_overview df) = Real q
         ∧ q * inject_Z (Z.of_nat (length df))
           == inject_Z (sum_Z (pointsAway <$> df))) ∧
   (∃ q, home_win_rate (get_overview df) = Real q
         ∧ q == inject_Z (Z.of_nat (length (filter home_won df)))
                / inject_Z (Z.of_nat (length df)) * 100
         ∧ 0 <= q <= 100)).
Proof.
  split; [done|]. intros Hdf.
  assert (0 < length df)%nat as Hlen by (destruct df; [done|simpl; lia]).
  split_and!; simpl.
  - by apply mean_fmap.
  - by apply mean_fmap.
  - eexists. split; [by apply rate_count|]. split; [done|].
    apply percentage_bounds; [done|]. apply length_filter.
Qed.

Lemma overview_stats_witness :
  sample_df ≠ [] ∧
  total_games (get_overview sample_df) = 3%nat ∧
  ∃ q, home_win_rate (get_overview sample_df) = Real q ∧ 0 <= q <= 100.
Proof.
  split; [done|].
  destruct (overview_stats sample_df) as [Htotal Hrest].
  split; [exact Htotal|].
  destruct Hrest as (_ & _ & q & Hq & _ & Hb); [done|].
  exists q. by split.
Defined.

(** C2. On an empty frame, here the one [load_data] builds from a file
    without a game since 2000, [get_overview] raises nothing and guards
    nothing: the averages are the means of empty columns and the rate
    is 0/0 times 100, all NaN. *)
Theorem overview_empty_nan :
  load_data old_csv = [] ∧
  get_overview (load_data old_csv)
  = {| total_games := 0; avg_home_points := NaN;
       avg_away_points := NaN; home_win_rate := NaN |}.
Proof. split; reflexivity. Qed.
End Overview.

(** ** Playoffs against the regular season *)

(** C9. When every row carries the flag 1 or 0, the [games] of the two
    partitions add up to the [total_games] of the overview. *)
Theorem playoffs_regular_partition (df : DataFrame) :
  Forall flag_ok df →
  (ps_games (regular (get_playoffs_vs_regular df))
   + ps_games (playoffs (get_playoffs_vs_regular df)))%nat
  = total_games (get_overview df).
Proof.
  intros Hflag. simpl. apply length_filter_split.
  intros r Hr. rewrite Forall_forall in Hflag.
  destruct (Hflag r Hr) as [H1|H0]; [left|right]; split; lia.
Qed.

Lemma playoffs_regular_partition_witness :
  Forall flag_ok sample_df ∧
  (ps_games (regular (get_playoffs_vs_regular sample_df))
   + ps_games (playoffs (get_playoffs_vs_regular sample_df)))%nat
  = total_games (get_overview sample_df).
Proof.
  assert (Forall flag_ok sample_df) as Hflag.
  { repeat constructor; (by left) || (by right). }
  split; [exact Hflag|]. exact (playoffs_regular_partition sample_df Hflag).
Defined.

(** ** Season trend *)

Lemma season_trend_seasons (df : DataFrame) :
  ss_season <$> get_season_trend df = sorted (unique (seasonStartYear <$> df)).
Proof.
  unfold get_season_trend. rewrite <- list_fmap_compose. apply list_fmap_id.
Qed.

(** A season of the frame has a non-empty group. *)
Lemma in_season_nonempty (df : DataFrame) (s : Z) :
  s ∈ seasonStartYear <$> df → in_season s df ≠ [].
Proof.
  intros (r & -> & Hr)%list_elem_of_fmap Hnil.
  by eapply (filter_nil_not_elem_of _ _ r) in Hnil.
Qed.

Section SeasonTrend.
Local Open Scope Q_scope.

(** C5. [get_season_trend] has one row for each season of the frame and
    no other, in strictly ascending order of season; a row carries the
    number of rows of its season, which is positive, and the means of
    [pointsHome], [pointsAway] and [totalPoints] over them. *)
Theorem season_trend_rows (df : DataFrame) :
  StronglySorted Z.lt (ss_season <$> get_season_trend df) ∧
  (∀ s, s ∈ ss_season <$> get_season_trend df
        ↔ ∃ r, r ∈ df ∧ seasonStartYear r = s) ∧
  (∀ row, row ∈ get_season_trend df →
     let group := in_season (ss_season row) df in
     ss_games row = length group ∧ (0 < ss_games row)%nat ∧
     (∃ q, ss_avg_home row = Real q
           ∧ q * inject_Z (Z.of_nat (ss_games row))
             == inject_Z (sum_Z (pointsHome <$> group))) ∧
     (∃ q, ss_avg_away row = Real q
           ∧ q * inject_Z (Z.of_nat (ss_games row))
             == inject_Z (sum_Z (pointsAway <$> group))) ∧
     (∃ q, ss_avg_total row = Real q
           ∧ q * inject_Z (Z.of_nat (ss_games row))
             == inject_Z (sum_Z (totalPoints <$> group)))).
Proof.
  split_and!.
  - rewrite season_trend_seasons. apply sorted_unique_lt.
  - intros s. rewrite season_trend_seasons, elem_of_sorted_unique,
      list_elem_of_fmap. split; intros (r & ? & ?); eauto.
  - intros row (s & -> & Hs)%list_elem_of_fmap. simpl.
    apply elem_of_sorted_unique, in_season_nonempty in Hs.
    rewrite length_fmap.
    split_and!; [done| |by apply mean_fmap..].
    destruct (in_season s df); [done|simpl; lia].
Qed.
End SeasonTrend.

Lemma season_trend_rows_witness :
  ss_season <$> get_season_trend sample_df = [2020; 2021] ∧
  ∀ row, row ∈ get_season_trend sample_df → (0 < ss_games row)%nat.
Proof.
  split; [reflexivity|]. intros row Hrow.
  destruct (season_trend_rows sample_df) as (_ & _ & Hrows).
  apply (Hrows row Hrow).
Defined.

(** ** High-scoring games *)

(** C6. [get_high_scoring_games] returns ten rows, or as many as the
    frame has when it has fewer; they are the rows of the largest
    [totalPoints], no row left out has more than a row returned, and each
    row returned has at least the total of every row after it. *)
Theorem high_scoring_top (df : DataFrame) :
  length (get_high_scoring_games df) = (length df `min` 10)%nat ∧
  StronglySorted (λ a b, hg_total b ≤ hg_total a) (get_high_scoring_games df) ∧
  ∃ top rest,
    get_high_scoring_games df = high_game_of <$> top ∧
    df ≡ₚ top ++ rest ∧
    ∀ x y, x ∈ top → y ∈ rest → totalPoints y ≤ totalPoints x.
Proof.
  pose proof (sort_desc_sorted totalPoints df) as Hsorted.
  split_and!.
  - unfold get_high_scoring_games, top_games, nlargest.
    rewrite length_fmap, length_take, sort_desc_Permutation. lia.
  - unfold get_high_scoring_games.
    apply (StronglySorted_fmap _ (desc totalPoints)); [done|].
    by apply sorted_take.
  - exists (top_games df), (drop 10 (sort_desc totalPoints df)).
    split_and!; [done|..].
    + unfold top_games, nlargest.
      by rewrite take_drop, sort_desc_Permutation.
    + intros x y Hx Hy.
      apply (sorted_take_drop (desc totalPoints) 10 _ x y Hsorted Hx Hy).
Qed.

(** ** Team rankings: the season filter *)

(** C10. A season filter of 0 fails the truthiness test of
    [if season:], so the ranking list is the one computed without a
    filter. *)
Theorem rankings_zero_filter (df : DataFrame) :
  rankings (get_team_rankings df (Some 0)) = rankings (get_team_rankings df None).
Proof. reflexivity. Qed.

(** ** Team detail *)

Lemma filter_none {A} (P : A → Prop) `{!∀ x, Decision (P x)} (l : list A) :
  Forall (λ x, ¬ P x) l → filter P l = [].
Proof.
  induction 1 as [|x l Hx _ IH]; [done|].
  by rewrite filter_cons_False.
Qed.

(** A loop that appends at most one row per key, carrying the key, keeps
    the order of the keys. *)
Lemma omap_keys_sorted {B} (R : relation Z) (f : Z → option B) (g : B → Z)
    (l : list Z) :
  (∀ s b, f s = Some b → g b = s) →
  StronglySorted R l → StronglySorted R (g <$> omap f l).
Proof.
  intros Hkey. induction 1 as [|s l Hl IH Hs]; simpl; [constructor|].
  destruct (f s) as [b|] eqn:Hb; [|done]. csimpl.
  constructor; [done|]. rewrite (Hkey s b Hb).
  apply Forall_forall. intros s' (b' & -> & Hb')%list_elem_of_fmap.
  apply list_elem_of_omap in Hb' as (s'' & Hs'' & Hb').
  rewrite (Hkey _ _ Hb'). rewrite Forall_forall in Hs. by apply Hs.
Qed.

Lemma season_entry_season (team_home team_away : DataFrame) s row :
  season_entry team_home team_away s = Some row → sr_season row = s.
Proof. unfold season_entry. case_decide; [|done]. by intros [= <-]. Qed.

(** The rows of the season loop before the slice, in ascending order of
    season. *)
Lemma seasons_data_sorted (team_home team_away : DataFrame) (seasons : list Z) :
  StronglySorted Z.lt seasons →
  StronglySorted Z.lt
    (sr_season <$> omap (season_entry team_home team_away) seasons).
Proof. apply omap_keys_sorted, season_entry_season. Qed.

Lemma length_last_n {A} (n : nat) (l : list A) :
  (length (last_n n l) = length l `min` n)%nat.
Proof. unfold last_n. rewrite length_drop. lia. Qed.

Lemma last_n_split {A} (n : nat) (l : list A) :
  l = take (length l - n) l ++ last_n n l.
Proof. unfold last_n. by rewrite take_drop. Qed.

(** C7. The season rows of [get_team_detail] are at most ten, in strictly
    ascending order of season; each stands for a season in which the team
    played, with its number of games, at home and away, and its number of
    wins there; a season in which the team played is left out only when
    ten more recent ones are listed. *)
Theorem team_detail_seasons (df : DataFrame) (team : string) :
  let rows := td_seasons (get_team_detail df team) in
  (length rows ≤ 10)%nat ∧
  StronglySorted Z.lt (sr_season <$> rows) ∧
  (∀ row, row ∈ rows →
     (0 < sr_games row)%nat ∧
     sr_games row
     = (length (filter (λ r, seasonStartYear r = sr_season row
                             ∧ homeTeam r = team) df)
        + length (filter (λ r, seasonStartYear r = sr_season row
                               ∧ awayTeam r = team) df))%nat ∧
     sr_wins row
     = (length (filter (λ r, home_won r ∧ seasonStartYear r = sr_season row
                             ∧ homeTeam r = team) df)
        + length (filter (λ r, away_won r ∧ seasonStartYear r = sr_season row
                               ∧ awayTeam r = team) df))%nat) ∧
  (∀ r, r ∈ df → homeTeam r = team ∨ awayTeam r = team →
     seasonStartYear r ∉ sr_season <$> rows →
     length rows = 10%nat
     ∧ ∀ row, row ∈ rows → seasonStartYear r < sr_season row).
Proof.
  simpl.
  set (team_home := filter (λ r, homeTeam r = team) df).
  set (team_away := filter (λ r, awayTeam r = team) df).
  set (seasons := sorted (unique (seasonStartYear <$> df))).
  set (seasons_data := omap (season_entry team_home team_away) seasons).
  assert (StronglySorted Z.lt (sr_season <$> seasons_data)) as Hsorted
    by apply seasons_data_sorted, sorted_unique_lt.
  split_and!.
  - rewrite length_last_n. lia.
  - unfold last_n. rewrite fmap_drop. by apply sorted_drop.
  - intros row Hrow. apply subseteq_drop in Hrow.
    apply list_elem_of_omap in Hrow as (s & _ & Hrow).
    unfold season_entry in Hrow. case_decide as Hgames; [|done].
    injection Hrow as <-. simpl. split; [done|].
    unfold in_season, team_home, team_away.
    by rewrite !list_filter_filter.
  - intros r Hr Hplayed Hout.
    assert (∃ row0, row0 ∈ seasons_data
                    ∧ sr_season row0 = seasonStartYear r) as (row0 & Hrow0 & Hs0).
    { assert (seasonStartYear r ∈ seasons) as Hs.
      { apply elem_of_sorted_unique, list_elem_of_fmap. eauto. }
      destruct (season_entry team_home team_away (seasonStartYear r))
        as [row0|] eqn:Hentry.
      - exists row0. split; [|by eapply season_entry_season].
        apply list_elem_of_omap. eauto.
      - exfalso. unfold season_entry in Hentry.
        case_decide as Hgames; [done|]. apply Hgames.
        destruct Hplayed as [Hh|Ha].
        + assert (r ∈ in_season (seasonStartYear r) team_home) as Hin.
          { unfold in_season, team_home. by rewrite !list_elem_of_filter. }
          destruct (in_season _ team_home); [by apply elem_of_nil in Hin|].
          simpl. lia.
        + assert (r ∈ in_season (seasonStartYear r) team_away) as Hin.
          { unfold in_season, team_away. by rewrite !list_elem_of_filter. }
          destruct (in_season _ team_away); [by apply elem_of_nil in Hin|].
          simpl. lia. }
    rewrite (last_n_split 10 seasons_data) in Hrow0.
    apply elem_of_app in Hrow0 as [Hold|Hkept].
    + split.
      * rewrite length_last_n.
        destruct (decide (10 < length seasons_data)%nat); [lia|].
        replace (length seasons_data - 10)%nat with 0%nat in Hold by lia.
        by apply elem_of_nil in Hold.
      * intros row Hrow. rewrite <- Hs0.
        apply (sorted_take_drop Z.lt (length seasons_data - 10)
                 (sr_season <$> seasons_data)); [done|..].
        -- rewrite <- fmap_take. by apply list_elem_of_fmap_2.
        -- rewrite <- fmap_drop. by apply list_elem_of_fmap_2.
    + exfalso. apply Hout. rewrite <- Hs0. by apply list_elem_of_fmap_2.
Qed.

Lemma team_detail_seasons_witness :
  sr_season <$> td_seasons (get_team_detail sample_df "A") = [2020; 2021] ∧
  ∀ row, row ∈ td_seasons (get_team_detail sample_df "A") →
         (0 < sr_games row)%nat.
Proof.
  split; [reflexivity|]. intros row Hrow.
  destruct (team_detail_seasons sample_df "A") as (_ & _ & Hrows & _).
  apply (Hrows row Hrow).
Defined.

Lemma season_loop_empty (seasons : list Z) :
  omap (season_entry [] []) seasons = [].
Proof. by induction seasons. Qed.

(** C8. For a team that no row names, [get_team_detail] raises nothing
    and reports no win, no game, a win rate of 0 and no season; the
    average of points is NaN, the means of the two empty columns carried
    through the weighted sum and the division by [max(total_games, 1)]. *)
Theorem team_detail_unknown (df : DataFrame) (team : string) :
  Forall (λ r, homeTeam r ≠ team ∧ awayTeam r ≠ team) df →
  get_team_detail df team
  = {| td_team := team; td_total_wins := 0; td_total_games := 0;
       td_win_rate := Real 0; td_avg_points := NaN; td_seasons := [] |}.
Proof.
  intros Hteam. unfold get_team_detail.
  rewrite (filter_none (λ r, homeTeam r = team) df),
          (filter_none (λ r, awayTeam r = team) df).
  - by rewrite season_loop_empty.
  - eapply Forall_impl; [exact Hteam|]. by intros r [Hhome Haway].
  - eapply Forall_impl; [exact Hteam|]. by intros r [Hhome Haway].
Qed.

Lemma team_detail_unknown_witness :
  Forall (λ r, homeTeam r ≠ "C" ∧ awayTeam r ≠ "C") sample_df ∧
  td_avg_points (get_team_detail sample_df "C") = NaN.
Proof.
  assert (Forall (λ r, homeTeam r ≠ "C" ∧ awayTeam r ≠ "C") sample_df) as Hteam.
  { by repeat constructor. }
  split; [exact Hteam|].
  by rewrite (team_detail_unknown sample_df "C" Hteam).
Defined.

(** ** Team rankings *)


Section ValueCounts.
Implicit Types col : list (option string).

Lemma value_counts_Permutation col :
  value_counts col
  ≡ₚ (λ k, (k, count k (dropna col))) <$> unique (dropna col).
Proof. apply sort_desc_Permutation. Qed.





Lemma elem_of_value_counts col k c :
  (k, c) ∈ value_counts col
  ↔ k ∈ dropna col ∧ c = count k (dropna col).
Proof.
  rewrite value_counts_Permutation, list_elem_of_fmap.
  setoid_rewrite elem_of_unique. split.
  - by intros (k' & [= -> ->] & Hk).
  - intros [Hk ->]. eauto.
Qed.

End ValueCounts.


(** The tally of [value_counts] on the [Winner] column is the number of
    rows naming the team. *)
Lemma count_Winner (team : string) (data : DataFrame) :
  count team (dropna (Winner <$> data)) = win_count team data.
Proof.
  unfold count, win_count, dropna.
  induction data as [|r data IH]; [done|]. csimpl.
  rewrite (filter_cons (λ r, Winner r = Some team)).
  destruct (Winner r) as [t|] eqn:Hw; simpl.
  - rewrite filter_cons.
    repeat case_decide; simplify_eq; simpl; by rewrite ?IH.
  - exact IH.
Qed.

(** A team wins only games it plays. *)
Lemma win_count_le_games (team : string) (data : DataFrame) :
  Forall winner_played data →
  (win_count team data ≤ home_games team data + away_games team data)%nat.
Proof.
  unfold win_count, home_games, away_games.
  induction 1 as [|r data Hr _ IH]; [done|].
  rewrite !filter_cons. unfold winner_played in Hr.
  destruct (decide (Winner r = Some team)) as [Hw|_].
  - rewrite Hw in Hr.
    destruct Hr as [Hh|Ha]; repeat case_decide; simpl; try lia; congruence.
  - repeat case_decide; simpl; lia.
Qed.

(** The dictionary of the first loop holds, for each team it was filled
    for, the games of the team at home and away. *)
Lemma total_games_of_lookup (data : DataFrame) (teams : list string)
    (team : string) :
  team ∈ teams →
  total_games_of data teams !! team
  = Some (home_games team data + away_games team data)%nat.
Proof.
  unfold total_games_of.
  generalize (∅ : gmap string nat).
  induction teams as [|t teams IH] using rev_ind; intros d Hteam.
  - by apply elem_of_nil in Hteam.
  - rewrite foldl_app. simpl.
    destruct (decide (t = team)) as [->|Hne].
    + apply lookup_insert_eq.
    + rewrite lookup_insert_ne by done. apply IH.
      apply elem_of_app in Hteam as [?|Ht]; [done|].
      by apply list_elem_of_singleton in Ht.
Qed.

Lemma season_data_filter (df : DataFrame) (s : Z) :
  s ≠ 0 → season_data df (Some s) = in_season s df.
Proof. intros Hs. unfold season_data, truthy. by rewrite bool_decide_true. Qed.

Lemma season_data_subseteq (df : DataFrame) (season : option Z) :
  season_data df season ⊆ df.
Proof.
  unfold season_data. destruct season as [s|]; [|done].
  destruct (truthy (Some s)); [|done].
  intros r Hr. by apply list_elem_of_filter in Hr as [_ Hr].
Qed.


Lemma count_elem_of_pos (k : string) (l : list string) :
  k ∈ l → (0 < count k l)%nat.
Proof.
  unfold count. intros Hk.
  assert (k ∈ filter (λ y, y = k) l) as Hin by by apply list_elem_of_filter.
  destruct (filter (λ y, y = k) l); [by apply elem_of_nil in Hin|simpl; lia].
Qed.

Lemma elem_of_length_pos {A} (x : A) (l : list A) :
  x ∈ l → (0 < length l)%nat.
Proof. destruct l; [by intros ?%elem_of_nil|simpl; lia]. Qed.








(** C4, as the code has it. A season filter other than 0 that lies
    outside the observed range of seasons gives an empty ranking list. *)
Theorem rankings_unseen_season (df : DataFrame) (s : Z) :
  s ≠ 0 → ¬ in_observed_range df s →
  rankings (get_team_rankings df (Some s)) = [].
Proof.
  intros Hs Hout. unfold get_team_rankings.
  rewrite season_data_filter by done. unfold in_season.
  rewrite (filter_none (λ r, seasonStartYear r = s) df); [done|].
  apply Forall_forall. intros r Hr Heq. apply Hout.
  split; apply Exists_exists; exists r; (split; [done|lia]).
Qed.

Lemma rankings_unseen_season_witness :
  1999 ≠ 0 ∧ ¬ in_observed_range sample_df 1999 ∧
  rankings (get_team_rankings sample_df (Some 1999)) = [].
Proof.
  assert (¬ in_observed_range sample_df 1999) as Hout by compute_done.
  split; [done|]. split; [exact Hout|].
  apply (rankings_unseen_season sample_df 1999); [done|exact Hout].
Defined.

(** C4, as stated, fails at the filter 0: it lies outside the observed
    range of the sample frame, and the ranking list is not empty. *)
Lemma rankings_zero_filter_not_empty :
  ¬ in_observed_range sample_df 0 ∧
  rankings (get_team_rankings sample_df (Some 0)) ≠ [].
Proof. split; [compute_done|done]. Qed.

(** * Further properties of the handlers *)

(** ** The loader *)

Lemma wrap_int64_id (z : Z) : int64_range z → wrap_int64 z = z.
Proof.
  unfold int64_range, wrap_int64. intros Hz.
  rewrite Z.mod_small by lia. lia.
Qed.

Lemma load_data_seasons (csv : list csv_row) :
  Forall (λ r, 2000 ≤ seasonStartYear r) (load_data csv).
Proof.
  apply Forall_forall. intros r (c & -> & Hc)%list_elem_of_fmap.
  by apply list_elem_of_filter in Hc as [Hseason _].
Qed.

Lemma load_data_total (csv : list csv_row) :
  Forall scores_fit csv → Forall total_ok (load_data csv).
Proof.
  intros Hfit. apply Forall_forall.
  intros r (c & -> & Hc)%list_elem_of_fmap.
  apply list_elem_of_filter in Hc as [_ Hc].
  rewrite Forall_forall in Hfit. apply wrap_int64_id. by apply Hfit.
Qed.

(** Every row [load_data] keeps is of season 2000 or later and carries as
    [totalPoints] the int64 sum of its two scores, which is their sum
    when the sums of the file fit int64 and wraps around otherwise; no
    row of the file from 2000 on is lost, and the rows keep the order of
    the file. *)
Theorem load_data_rows (csv : list csv_row) :
  Forall (λ r, 2000 ≤ seasonStartYear r
               ∧ totalPoints r = wrap_int64 (pointsHome r + pointsAway r))
         (load_data csv) ∧
  (Forall scores_fit csv → Forall total_ok (load_data csv)) ∧
  (∀ c, c ∈ csv → 2000 ≤ csv_seasonStartYear c →
        with_totalPoints c ∈ load_data csv) ∧
  game_id <$> load_data csv `sublist_of` csv_game_id <$> csv.
Proof.
  split_and!; [|apply load_data_total|unfold load_data..].
  - apply Forall_forall. intros r (c & -> & Hc)%list_elem_of_fmap.
    by apply list_elem_of_filter in Hc as [Hseason _].
  - intros c Hc Hseason. apply list_elem_of_fmap_2.
    by apply list_elem_of_filter.
  - rewrite <- list_fmap_compose.
    change (game_id ∘ with_totalPoints) with csv_game_id.
    apply fmap_sublist, sublist_filter.
Qed.

Lemma load_data_rows_witness :
  Forall scores_fit recent_csv ∧
  totalPoints <$> load_data recent_csv = [185; 214] ∧
  Forall total_ok (load_data recent_csv).
Proof.
  assert (Forall scores_fit recent_csv) as Hfit
    by compute_done.
  split; [exact Hfit|]. split; [reflexivity|].
  destruct (load_data_rows recent_csv) as (_ & Htotal & _).
  exact (Htotal Hfit).
Defined.

(** The wrap-around is reached: a home score of 2^63 - 1 and an away
    score of 1 give a negative total. *)
Lemma wrap_int64_overflow : wrap_int64 (2 ^ 63 - 1 + 1) = - 2 ^ 63.
Proof. reflexivity. Qed.

(** ** The lists of the main page *)

Section SortByFacts.
Context {A : Type} (le : A → A → bool).
Implicit Types l : list A.

Lemma insert_by_Permutation x l : insert_by le x l ≡ₚ x :: l.
Proof.
  induction l as [|y l IH]; simpl; [done|].
  destruct (le x y); [done|]. by rewrite IH, Permutation_swap.
Qed.

Lemma sort_by_Permutation l : sort_by le l ≡ₚ l.
Proof.
  induction l as [|x l IH]; simpl; [done|].
  by rewrite insert_by_Permutation, IH.
Qed.

Context (le_total : ∀ x y, le x y = true ∨ le y x = true).
Context (le_trans : ∀ x y z, le x y = true → le y z = true → le x z = true).

Lemma insert_by_sorted x l :
  StronglySorted (λ a b, le a b = true) l →
  StronglySorted (λ a b, le a b = true) (insert_by le x l).
Proof.
  induction 1 as [|y l Hl IH Hy]; simpl.
  - repeat constructor.
  - destruct (le x y) eqn:Hxy.
    + constructor; [by constructor|]. constructor; [done|].
      eapply Forall_impl; [exact Hy|]. intros z Hz. by eapply le_trans.
    + constructor; [done|].
      rewrite insert_by_Permutation. constructor; [|done].
      destruct (le_total x y) as [Hle|Hle]; [congruence|done].
Qed.

Lemma sort_by_sorted l :
  StronglySorted (λ a b, le a b = true) (sort_by le l).
Proof.
  induction l as [|x l IH]; simpl; [constructor|].
  by apply insert_by_sorted.
Qed.
End SortByFacts.

(** The lexicographic order of strings is transitive. *)
Lemma string_compare_trans (s1 s2 s3 : string) :
  String.compare s1 s2 ≠ Gt → String.compare s2 s3 ≠ Gt →
  String.compare s1 s3 ≠ Gt.
Proof.
  revert s2 s3. induction s1 as [|a1 s1 IH]; intros s2 s3;
    destruct s2 as [|a2 s2], s3 as [|a3 s3]; simpl; try done.
  unfold Ascii.compare.
  destruct (N.compare_spec (Ascii.N_of_ascii a1) (Ascii.N_of_ascii a2))
    as [H12|H12|H12];
  destruct (N.compare_spec (Ascii.N_of_ascii a2) (Ascii.N_of_ascii a3))
    as [H23|H23|H23]; try done.
  - rewrite H12, H23, N.compare_refl. apply IH.
  - intros _ _. rewrite H12. by apply N.compare_lt_iff in H23 as ->.
  - intros _ _. rewrite <- H23. by apply N.compare_lt_iff in H12 as ->.
  - intros _ _.
    assert (Ascii.N_of_ascii a1 < Ascii.N_of_ascii a3)%N as H13 by lia.
    by apply N.compare_lt_iff in H13 as ->.
Qed.

Lemma string_leb_trans (s1 s2 s3 : string) :
  String.leb s1 s2 = true → String.leb s2 s3 = true →
  String.leb s1 s3 = true.
Proof.
  unfold String.leb. intros H12 H23.
  pose proof (string_compare_trans s1 s2 s3) as Htrans.
  destruct (String.compare s1 s2), (String.compare s2 s3),
    (String.compare s1 s3); try done; by exfalso; apply Htrans.
Qed.

Lemma sorted_reverse_gt (l : list Z) :
  NoDup l → StronglySorted (λ a b, b < a) (sorted_reverse l).
Proof.
  intros Hnd. unfold sorted_reverse.
  assert (NoDup (sort_desc id l)) as Hnd' by by rewrite sort_desc_Permutation.
  pose proof (sort_desc_sorted id l) as Hs.
  induction Hs as [|x k Hk IH Hx]; [constructor|].
  apply NoDup_cons in Hnd' as [Hnx Hnd'].
  constructor; [by apply IH|].
  apply Forall_forall. intros y Hy.
  rewrite Forall_forall in Hx. specialize (Hx y Hy). unfold desc in Hx.
  assert (x ≠ y) by (by intros ->). simpl in *. lia.
Qed.

(** The seasons offered on the main page are the seasons of the frame,
    each once, the latest first. *)
Theorem home_seasons (df : DataFrame) :
  StronglySorted (λ a b, b < a) (hp_seasons (home df)) ∧
  ∀ s, s ∈ hp_seasons (home df) ↔ ∃ r, r ∈ df ∧ seasonStartYear r = s.
Proof.
  split.
  - apply sorted_reverse_gt, NoDup_unique.
  - intros s. simpl. unfold sorted_reverse.
    rewrite sort_desc_Permutation, elem_of_unique, list_elem_of_fmap.
    split; intros (r & ? & ?); eauto.
Qed.

Lemma elem_of_dropna {A} (col : list (option A)) (x : A) :
  x ∈ dropna col ↔ Some x ∈ col.
Proof.
  unfold dropna. rewrite list_elem_of_omap. split.
  - by intros ([y|] & Hy & [= ->]).
  - intros Hx. by exists (Some x).
Qed.

(** The teams offered on the main page are the teams recorded as the
    winner of some game, each once, in lexicographic order: a team that
    never won is not offered. *)
Theorem home_teams (df : DataFrame) :
  StronglySorted (λ a b, String.leb a b = true) (hp_teams (home df)) ∧
  NoDup (hp_teams (home df)) ∧
  ∀ t, t ∈ hp_teams (home df) ↔ ∃ r, r ∈ df ∧ Winner r = Some t.
Proof.
  simpl. unfold sorted_str. split_and!.
  - apply sort_by_sorted; [apply String.leb_total|apply string_leb_trans].
  - rewrite sort_by_Permutation. apply NoDup_unique.
  - intros t.
    rewrite sort_by_Permutation, elem_of_unique, elem_of_dropna,
      list_elem_of_fmap.
    split; intros (r & ? & ?); eauto.
Qed.

Lemma StronglySorted_reverse {A} (R : relation A) (l : list A) :
  StronglySorted R l → StronglySorted (flip R) (reverse l).
Proof.
  induction 1 as [|x l Hl IH Hx]; [constructor|].
  rewrite reverse_cons. apply StronglySorted_app_2; [|done|repeat constructor].
  intros y z Hy Hz. apply list_elem_of_singleton in Hz as ->.
  rewrite elem_of_reverse in Hy. rewrite Forall_forall in Hx.
  unfold flip. by apply Hx.
Qed.

(** The season list of the main page is the season axis of the trend,
    read backwards. *)
Theorem home_seasons_trend (df : DataFrame) :
  reverse (hp_seasons (home df)) = ss_season <$> get_season_trend df.
Proof.
  apply (StronglySorted_unique_strong Z.lt).
  - intros x y _ _ Hxy Hyx. lia.
  - apply (StronglySorted_reverse (λ a b, b < a)), sorted_reverse_gt,
      NoDup_unique.
  - rewrite season_trend_seasons. apply sorted_unique_lt.
  - rewrite reverse_Permutation, season_trend_seasons. simpl.
    unfold sorted_reverse, sorted.
    by rewrite sort_desc_Permutation, sort_asc_Permutation.
Qed.

(** ** Counting by group *)

Lemma sum_list_with_fmap {A B} (f : B → nat) (g : A → B) (l : list A) :
  sum_list_with f (g <$> l) = sum_list_with (f ∘ g) l.
Proof. induction l as [|x l IH]; csimpl; [done|]. by rewrite IH. Qed.

Lemma sum_list_with_add {A} (f g : A → nat) (l : list A) :
  sum_list_with (λ x, f x + g x)%nat l
  = (sum_list_with f l + sum_list_with g l)%nat.
Proof. induction l as [|x l IH]; simpl; [done|]. rewrite IH. lia. Qed.

Lemma sum_list_with_ext {A} (f g : A → nat) (l : list A) :
  (∀ x, x ∈ l → f x = g x) → sum_list_with f l = sum_list_with g l.
Proof.
  induction l as [|x l IH]; intros Hfg; simpl; [done|].
  rewrite (Hfg x) by left. rewrite IH; [done|].
  intros y Hy. apply Hfg. by right.
Qed.

(** One key among distinct keys is met once. *)
Lemma sum_indicator (k : Z) (keys : list Z) :
  NoDup keys →
  sum_list_with (λ s, if decide (k = s) then 1 else 0)%nat keys
  = (if decide (k ∈ keys) then 1 else 0)%nat.
Proof.
  induction 1 as [|s keys Hs Hnd IH]; simpl; [done|].
  rewrite IH. pose proof (elem_of_cons keys k s) as Hcons.
  repeat case_decide; try done; exfalso; intuition congruence.
Qed.

(** The groups of a key, taken over distinct keys that cover the list,
    count every element once. *)
Lemma group_sizes {A} (key : A → Z) (l : list A) (keys : list Z) :
  NoDup keys → (∀ x, x ∈ l → key x ∈ keys) →
  sum_list_with (λ s, length (filter (λ x, key x = s) l)) keys = length l.
Proof.
  intros Hnd. induction l as [|x l IH]; intros Hkeys.
  - clear. by induction keys.
  - rewrite (sum_list_with_ext _
      (λ s, (if decide (key x = s) then 1 else 0)
            + length (filter (λ y, key y = s) l))%nat).
    + rewrite sum_list_with_add, sum_indicator, IH by
        (done || (intros y Hy; apply Hkeys; by right)).
      rewrite decide_True by (apply Hkeys; left). done.
    + intros s _. rewrite filter_cons. by case_decide.
Qed.

Lemma sorted_unique_NoDup (l : list Z) : NoDup (sorted (unique l)).
Proof. unfold sorted. rewrite sort_asc_Permutation. apply NoDup_unique. Qed.

(** The seasons of a frame cover any part of it. *)
Lemma season_groups (df part : DataFrame) :
  part ⊆ df →
  sum_list_with (λ s, length (in_season s part))
    (sorted (unique (seasonStartYear <$> df)))
  = length part.
Proof.
  intros Hpart. apply (group_sizes seasonStartYear).
  - apply sorted_unique_NoDup.
  - intros r Hr. apply elem_of_sorted_unique, list_elem_of_fmap_2.
    by apply Hpart.
Qed.

(** ** Season trend, further *)

(** The [games] of the trend rows add up to the [total_games] of the
    overview: the seasons split the frame. *)
Theorem season_trend_total (df : DataFrame) :
  sum_list_with ss_games (get_season_trend df) = total_games (get_overview df).
Proof.
  unfold get_season_trend. rewrite sum_list_with_fmap. simpl.
  rewrite <- (season_groups df df) by done.
  apply sum_list_with_ext. intros s _. simpl. apply length_fmap.
Qed.

(** ** Team rankings, further *)

(** What a row of the ranking list is made of. *)
Lemma rankings_row_inv (df : DataFrame) (season : option Z) (row : ranking) :
  row ∈ rankings (get_team_rankings df season) →
  let data := season_data df season in
  let games := (home_games (rk_team row) data
                + away_games (rk_team row) data)%nat in
  (rk_team row, rk_wins row) ∈ value_counts (Winner <$> data) ∧
  rk_wins row = win_count (rk_team row) data ∧
  (0 < rk_wins row)%nat ∧
  rk_games row = games ∧
  rk_win_rate row
  = if decide (0 < games)%nat
    then Real (inject_Z (Z.of_nat (rk_wins row)) / inject_Z (Z.of_nat games)
               * 100)
    else Real 0.
Proof.
  intros ([team wins] & -> & Hin)%list_elem_of_fmap. simpl.
  rewrite (total_games_of_lookup (season_data df season) _ team)
    by by apply (list_elem_of_fmap_2 fst) in Hin.
  apply subseteq_take in Hin. simpl.
  pose proof Hin as [Hteam Hwins]%elem_of_value_counts.
  split_and!; [done| | |done..].
  - by rewrite Hwins, count_Winner.
  - rewrite Hwins. by apply count_elem_of_pos.
Qed.

(** With winners that played, a listed team has a game and no more wins
    than games. *)
Lemma rankings_row_games (df : DataFrame) (season : option Z) (row : ranking) :
  Forall winner_played df →
  row ∈ rankings (get_team_rankings df season) →
  (0 < rk_games row)%nat ∧ (rk_wins row ≤ rk_games row)%nat.
Proof.
  intros Hdf (_ & Hwins & Hwon & Hgames & _)%rankings_row_inv.
  assert (Forall winner_played (season_data df season)) as Hdata.
  { apply Forall_forall. intros r Hr. rewrite Forall_forall in Hdf.
    by apply Hdf, (season_data_subseteq df season). }
  pose proof (win_count_le_games (rk_team row) _ Hdata). lia.
Qed.

Section RankingRates.
Local Open Scope Q_scope.

Lemma ratio_nonneg (w n : nat) :
  (0 < n)%nat → 0 <= inject_Z (Z.of_nat w) / inject_Z (Z.of_nat n) * 100.
Proof.
  intros Hn. apply Qmult_le_0_compat; [|by vm_compute].
  apply Qle_shift_div_l; [by apply inject_nat_pos|].
  rewrite Qmult_0_l. apply inject_nat_nonneg.
Qed.

Lemma ratio_pos (w n : nat) :
  (0 < w)%nat → (0 < n)%nat →
  0 < inject_Z (Z.of_nat w) / inject_Z (Z.of_nat n) * 100.
Proof.
  intros Hw Hn. apply Qmult_lt_0_compat; [|by vm_compute].
  apply Qlt_shift_div_l; [by apply inject_nat_pos|].
  rewrite Qmult_0_l. by apply inject_nat_pos.
Qed.

(** Every team of the ranking list has won at least one game of the
    frame the filter leaves, so a team without a win is never listed; the
    win rate of a row is a number and never NaN or infinite: it is 0 when
    the team has no game there as home or away team, and wins over games
    times 100 otherwise. *)
Theorem rankings_rows_won (df : DataFrame) (season : option Z)
    (row : ranking) :
  row ∈ rankings (get_team_rankings df season) →
  (1 ≤ rk_wins row)%nat ∧
  ∃ q, rk_win_rate row = Real q ∧ 0 <= q ∧
       (rk_games row = 0%nat → q == 0) ∧
       ((0 < rk_games row)%nat →
        q == inject_Z (Z.of_nat (rk_wins row))
             / inject_Z (Z.of_nat (rk_games row)) * 100).
Proof.
  intros (_ & _ & Hwon & Hgames & Hrate)%rankings_row_inv.
  split; [lia|]. rewrite Hrate, <- Hgames. clear Hrate Hgames.
  case_decide as Hpos; eexists; (split; [reflexivity|]).
  - split_and!; [by apply ratio_nonneg|lia|done].
  - split_and!; [by vm_compute|done|lia].
Qed.

(** With winners that played the game they won, every team listed has a
    game, and its win rate is above 0 and at most 100. *)
Theorem rankings_rate_bounds (df : DataFrame) (season : option Z)
    (row : ranking) :
  Forall winner_played df →
  row ∈ rankings (get_team_rankings df season) →
  (0 < rk_games row)%nat ∧
  ∃ q, rk_win_rate row = Real q ∧ 0 < q <= 100.
Proof.
  intros Hdf Hrow.
  destruct (rankings_row_games df season row Hdf Hrow) as [Hpos Hle].
  apply rankings_row_inv in Hrow as (_ & _ & Hwon & Hgames & Hrate).
  split; [done|]. rewrite Hrate, <- Hgames, decide_True by done.
  eexists. split; [reflexivity|]. split.
  - by apply ratio_pos.
  - by apply percentage_bounds.
Qed.
End RankingRates.

Lemma rankings_rows_won_witness :
  ∃ row, row ∈ rankings (get_team_rankings sample_df None)
         ∧ (1 ≤ rk_wins row)%nat.
Proof.
  eexists. split; [by left|].
  apply (rankings_rows_won sample_df None). by left.
Defined.

Lemma rankings_rate_bounds_witness :
  Forall winner_played sample_df ∧
  ∃ row, row ∈ rankings (get_team_rankings sample_df None)
         ∧ (0 < rk_games row)%nat.
Proof.
  assert (Forall winner_played sample_df) as Hdf.
  { repeat constructor; (by left) || (by right). }
  split; [exact Hdf|]. eexists. split; [by left|].
  apply (rankings_rate_bounds sample_df None _ Hdf). by left.
Defined.

(** ** Team detail, further *)

Lemma winner_by_points_played (r : game) : winner_by_points r → winner_played r.
Proof.
  unfold winner_by_points, winner_played. intros ->.
  repeat case_decide; tauto.
Qed.

(** With a [Winner] column that follows the points, the tally of the
    column is the count of home wins and away wins by the points. *)
Lemma win_count_by_points (team : string) (df : DataFrame) :
  Forall winner_by_points df →
  win_count team df
  = (length (filter home_won (filter (λ r, homeTeam r = team) df))
     + length (filter away_won (filter (λ r, awayTeam r = team) df)))%nat.
Proof.
  unfold win_count. rewrite !list_filter_filter.
  induction 1 as [|r df Hr _ IH]; [done|].
  rewrite !filter_cons. unfold winner_by_points in Hr.
  unfold home_won, away_won in *.
  repeat case_decide; simplify_eq; simpl; rewrite ?IH; try lia; exfalso;
    intuition (congruence || lia).
Qed.

Section TeamDetailRates.
Local Open Scope Q_scope.

(** The totals of a team never show more wins than games, and the win
    rate is a number between 0 and 100 whatever the team. *)
Theorem team_detail_totals (df : DataFrame) (team : string) :
  (td_total_wins (get_team_detail df team)
   ≤ td_total_games (get_team_detail df team))%nat ∧
  ∃ q, td_win_rate (get_team_detail df team) = Real q ∧ 0 <= q <= 100.
Proof.
  unfold get_team_detail. cbn [td_total_wins td_total_games td_win_rate].
  set (team_home := filter (λ r, homeTeam r = team) df).
  set (team_away := filter (λ r, awayTeam r = team) df).
  pose proof (length_filter home_won team_home) as Hh.
  pose proof (length_filter away_won team_away) as Ha.
  split; [lia|].
  rewrite rate_count by lia. eexists. split; [reflexivity|].
  apply percentage_bounds; lia.
Qed.

(** A ranking row without season filter and the detail of its team agree
    on wins, games and win rate when the [Winner] column follows the
    points. *)
Theorem rankings_match_team_detail (df : DataFrame) (row : ranking) :
  Forall winner_by_points df →
  row ∈ rankings (get_team_rankings df None) →
  rk_wins row = td_total_wins (get_team_detail df (rk_team row)) ∧
  rk_games row = td_total_games (get_team_detail df (rk_team row)) ∧
  rk_win_rate row = td_win_rate (get_team_detail df (rk_team row)).
Proof.
  intros Hdf Hrow.
  assert (Forall winner_played df) as Hplayed.
  { eapply Forall_impl; [exact Hdf|]. apply winner_by_points_played. }
  destruct (rankings_row_games df None row Hplayed Hrow) as [Hpos _].
  apply rankings_row_inv in Hrow as (_ & Hwins & _ & Hgames & Hrate).
  simpl in Hwins, Hgames, Hrate. unfold home_games, away_games in *.
  rewrite win_count_by_points in Hwins by done.
  unfold get_team_detail. cbn [td_total_wins td_total_games td_win_rate].
  split_and!; [done..|].
  rewrite Hrate, decide_True, rate_count by lia.
  rewrite Hwins, Nat.max_l by lia. done.
Qed.

Lemma mean_mul_real (xs : list Z) :
  xs ≠ [] → ∃ q, fmul (mean xs) (of_nat (length xs)) = Real q.
Proof. destruct xs as [|x xs]; [done|]. intros _. by eexists. Qed.

(** With a home game and an away game the average of points is a
    number. *)
Lemma avg_points_real (df : DataFrame) (team : string) :
  Exists (λ r, homeTeam r = team) df →
  Exists (λ r, awayTeam r = team) df →
  ∃ q, td_avg_points (get_team_detail df team) = Real q.
Proof.
  intros (rh & Hrh & Hh)%Exists_exists (ra & Hra & Ha)%Exists_exists.
  unfold get_team_detail. cbn [td_avg_points].
  assert (filter (λ r, homeTeam r = team) df ≠ []) as Hhome.
  { intros Hnil.
    by apply (filter_nil_not_elem_of (λ r, homeTeam r = team) df rh) in Hnil. }
  assert (filter (λ r, awayTeam r = team) df ≠ []) as Haway.
  { intros Hnil.
    by apply (filter_nil_not_elem_of (λ r, awayTeam r = team) df ra) in Hnil. }
  set (team_home := filter (λ r, homeTeam r = team) df) in *.
  set (team_away := filter (λ r, awayTeam r = team) df) in *.
  assert (0 < length team_home)%nat as Hlh
    by (destruct team_home; [done|simpl; lia]).
  destruct (mean_mul_real (pointsHome <$> team_home)) as (qh & Hqh).
  { by destruct team_home. }
  destruct (mean_mul_real (pointsAway <$> team_away)) as (qa & Hqa).
  { by destruct team_away. }
  rewrite length_fmap in Hqh, Hqa. rewrite Hqh, Hqa. simpl.
  destruct (Qeq_bool _ 0) eqn:Hz.
  { apply Qeq_bool_eq, inject_nat_nonzero in Hz; [done|lia]. }
  by eexists.
Qed.

(** Without a home game, or without an away game, it is NaN. *)
Lemma avg_points_nan (df : DataFrame) (team : string) :
  Forall (λ r, homeTeam r ≠ team) df ∨ Forall (λ r, awayTeam r ≠ team) df →
  td_avg_points (get_team_detail df team) = NaN.
Proof.
  assert (∀ x, fadd x NaN = NaN) as Hadd by by intros [].
  intros [Hnone|Hnone]; unfold get_team_detail; cbn [td_avg_points].
  - by rewrite (filter_none (λ r, homeTeam r = team) df).
  - rewrite (filter_none (λ r, awayTeam r = team) df) by done.
    change (fmul (mean (pointsAway <$> [])) (of_nat (length []))) with NaN.
    by rewrite Hadd.
Qed.

(** The average of points of [get_team_detail] is a number exactly for a
    team that has a home game and an away game in the frame; for every
    other team it is NaN. *)
Theorem team_detail_avg_points (df : DataFrame) (team : string) :
  (∃ q, td_avg_points (get_team_detail df team) = Real q)
  ↔ Exists (λ r, homeTeam r = team) df ∧ Exists (λ r, awayTeam r = team) df.
Proof.
  split.
  - intros [q Hq].
    destruct (decide (Exists (λ r, homeTeam r = team) df)) as [Hh|Hh];
    [destruct (decide (Exists (λ r, awayTeam r = team) df)) as [Ha|Ha]|];
    [by split|exfalso..].
    + apply not_Exists_Forall in Ha; [|apply _].
      pose proof (avg_points_nan df team (or_intror Ha)) as Hnan. congruence.
    + apply not_Exists_Forall in Hh; [|apply _].
      pose proof (avg_points_nan df team (or_introl Hh)) as Hnan. congruence.
  - intros [Hh Ha]. by apply avg_points_real.
Qed.

(** For a team that has no home game, or no away game, the average of
    points is NaN, however many games it played on the other side. *)
Theorem team_detail_one_sided (df : DataFrame) (team : string) :
  Forall (λ r, homeTeam r ≠ team) df ∨ Forall (λ r, awayTeam r ≠ team) df →
  td_avg_points (get_team_detail df team) = NaN.
Proof. apply avg_points_nan. Qed.

(** In every season row of a team the wins are at most the games and the
    win rate is a number between 0 and 100. *)
Theorem team_detail_season_rates (df : DataFrame) (team : string)
    (row : season_row) :
  row ∈ td_seasons (get_team_detail df team) →
  (sr_wins row ≤ sr_games row)%nat ∧
  ∃ q, sr_win_rate row = Real q ∧ 0 <= q <= 100.
Proof.
  unfold get_team_detail. cbn [td_seasons]. intros Hrow%subseteq_drop.
  apply list_elem_of_omap in Hrow as (s & _ & Hrow).
  unfold season_entry in Hrow. case_decide as Hgames; [|done].
  injection Hrow as <-. cbn [sr_wins sr_games sr_win_rate].
  set (season_home := in_season s (filter (λ r, homeTeam r = team) df)) in *.
  set (season_away := in_season s (filter (λ r, awayTeam r = team) df)) in *.
  pose proof (length_filter home_won season_home) as Hh.
  pose proof (length_filter away_won season_away) as Ha.
  split; [lia|].
  destruct (Qeq_bool _ 0) eqn:Hz.
  { by apply Qeq_bool_eq, inject_nat_nonzero in Hz. }
  eexists. split; [reflexivity|].
  apply percentage_bounds; [done|lia].
Qed.
End TeamDetailRates.

Lemma rankings_match_team_detail_witness :
  Forall winner_by_points sample_df ∧
  ∃ row, row ∈ rankings (get_team_rankings sample_df None)
         ∧ rk_wins row = td_total_wins (get_team_detail sample_df (rk_team row)).
Proof.
  assert (Forall winner_by_points sample_df) as Hdf by by repeat constructor.
  split; [exact Hdf|]. eexists. split; [by left|].
  apply (rankings_match_team_detail sample_df _ Hdf). by left.
Defined.

Lemma team_detail_one_sided_witness :
  Forall (λ r, homeTeam r ≠ "C") (load_data recent_csv) ∧
  td_total_games (get_team_detail (load_data recent_csv) "C") = 1%nat ∧
  td_avg_points (get_team_detail (load_data recent_csv) "C") = NaN.
Proof.
  assert (Forall (λ r, homeTeam r ≠ "C") (load_data recent_csv)) as Hnone
    by by repeat constructor.
  split; [exact Hnone|]. split; [reflexivity|].
  apply (team_detail_one_sided (load_data recent_csv) "C"). by left.
Defined.

Lemma team_detail_season_rates_witness :
  ∃ row, row ∈ td_seasons (get_team_detail sample_df "B")
         ∧ (sr_wins row ≤ sr_games row)%nat.
Proof.
  eexists. split; [by left|].
  apply (team_detail_season_rates sample_df "B"). by left.
Defined.

(** ** The season rows against the totals *)

Lemma sum_list_with_omap {A B} (f : B → nat) (g : A → option B) (l : list A) :
  sum_list_with f (omap g l) = sum_list_with (λ x, from_option f 0%nat (g x)) l.
Proof.
  induction l as [|x l IH]; [done|]. csimpl.
  destruct (g x); simpl; by rewrite IH.
Qed.

Lemma length_omap_le {A B} (g : A → option B) (l : list A) :
  (length (omap g l) ≤ length l)%nat.
Proof.
  induction l as [|x l IH]; [done|]. csimpl.
  destruct (g x); simpl; lia.
Qed.

Lemma sum_last_n_le {A} (f : A → nat) (n : nat) (l : list A) :
  (sum_list_with f (last_n n l) ≤ sum_list_with f l)%nat.
Proof.
  rewrite (last_n_split n l) at 2. rewrite sum_list_with_app. lia.
Qed.

Lemma last_n_all {A} (n : nat) (l : list A) :
  (length l ≤ n)%nat → last_n n l = l.
Proof.
  intros Hlen. unfold last_n.
  by replace (length l - n)%nat with 0%nat by lia.
Qed.

Lemma season_entry_games (team_home team_away : DataFrame) (s : Z) :
  from_option sr_games 0%nat (season_entry team_home team_away s)
  = (length (in_season s team_home) + length (in_season s team_away))%nat.
Proof. unfold season_entry. case_decide; simpl; lia. Qed.

Lemma season_entry_wins (team_home team_away : DataFrame) (s : Z) :
  from_option sr_wins 0%nat (season_entry team_home team_away s)
  = (length (in_season s (filter home_won team_home))
     + length (in_season s (filter away_won team_away)))%nat.
Proof.
  assert (∀ (P : game → Prop) `{!∀ r, Decision (P r)} (l : DataFrame),
            length (in_season s (filter P l))
            = length (filter P (in_season s l))) as Hswap.
  { intros P HP l. unfold in_season. rewrite !list_filter_filter.
    f_equal. apply list_filter_iff. tauto. }
  rewrite !Hswap. unfold season_entry.
  pose proof (length_filter home_won (in_season s team_home)).
  pose proof (length_filter away_won (in_season s team_away)).
  case_decide; simpl; lia.
Qed.

(** The games and the wins of the season rows never exceed the totals of
    the team, and they add up to the totals when the frame has at most
    ten seasons, so that the slice drops no row. *)
Theorem team_detail_season_sums (df : DataFrame) (team : string) :
  (sum_list_with sr_games (td_seasons (get_team_detail df team))
   ≤ td_total_games (get_team_detail df team))%nat ∧
  (sum_list_with sr_wins (td_seasons (get_team_detail df team))
   ≤ td_total_wins (get_team_detail df team))%nat ∧
  ((length (get_season_trend df) ≤ 10)%nat →
   sum_list_with sr_games (td_seasons (get_team_detail df team))
   = td_total_games (get_team_detail df team) ∧
   sum_list_with sr_wins (td_seasons (get_team_detail df team))
   = td_total_wins (get_team_detail df team)).
Proof.
  unfold get_team_detail, get_season_trend.
  cbn [td_seasons td_total_games td_total_wins].
  set (team_home := filter (λ r, homeTeam r = team) df).
  set (team_away := filter (λ r, awayTeam r = team) df).
  set (seasons := sorted (unique (seasonStartYear <$> df))).
  set (seasons_data := omap (season_entry team_home team_away) seasons).
  assert (team_home ⊆ df) as Hhome.
  { intros r Hr. by apply list_elem_of_filter in Hr as [_ Hr]. }
  assert (team_away ⊆ df) as Haway.
  { intros r Hr. by apply list_elem_of_filter in Hr as [_ Hr]. }
  assert (sum_list_with sr_games seasons_data
          = (length team_home + length team_away)%nat) as Hgames.
  { unfold seasons_data. rewrite sum_list_with_omap.
    rewrite (sum_list_with_ext _ _ seasons
               (λ s _, season_entry_games team_home team_away s)).
    rewrite sum_list_with_add. unfold seasons.
    by rewrite (season_groups df team_home), (season_groups df team_away). }
  assert (sum_list_with sr_wins seasons_data
          = (length (filter home_won team_home)
             + length (filter away_won team_away))%nat) as Hwins.
  { unfold seasons_data. rewrite sum_list_with_omap.
    rewrite (sum_list_with_ext _ _ seasons
               (λ s _, season_entry_wins team_home team_away s)).
    rewrite sum_list_with_add. unfold seasons.
    rewrite (season_groups df (filter home_won team_home)),
            (season_groups df (filter away_won team_away)); [done|..].
    - intros r Hr. by apply list_elem_of_filter in Hr as [_ Hr%Haway].
    - intros r Hr. by apply list_elem_of_filter in Hr as [_ Hr%Hhome]. }
  split_and!.
  - rewrite <- Hgames. apply sum_last_n_le.
  - rewrite <- Hwins. apply sum_last_n_le.
  - rewrite length_fmap. intros Hlen.
    rewrite last_n_all; [done|].
    pose proof (length_omap_le (season_entry team_home team_away) seasons)
      as Hle.
    change (length seasons_data ≤ length seasons)%nat in Hle. lia.
Qed.

Lemma team_detail_season_sums_witness :
  (length (get_season_trend sample_df) ≤ 10)%nat ∧
  sum_list_with sr_games (td_seasons (get_team_detail sample_df "A")) = 3%nat.
Proof.
  assert (length (get_season_trend sample_df) ≤ 10)%nat as Hlen
    by (vm_compute; lia).
  split; [exact Hlen|].
  destruct (team_detail_season_sums sample_df "A") as (_ & _ & Hsum).
  destruct (Hsum Hlen) as [Hgames _]. by rewrite Hgames.
Defined.

(** ** Playoffs against the regular season, further *)

Section PartitionRates.
Local Open Scope Q_scope.

(** Without a playoff game the playoffs side reports no game and a home
    win rate of exactly 0, by its guarded divisor, while its three means
    are NaN. *)
Theorem playoffs_empty (df : DataFrame) :
  Forall (λ r, isRegular r ≠ 0%Z) df →
  playoffs (get_playoffs_vs_regular df)
  = {| ps_games := 0; ps_avg_total := NaN; ps_avg_home := NaN;
       ps_avg_away := NaN; ps_home_win_rate := Real 0 |}.
Proof.
  intros Hnone. unfold get_playoffs_vs_regular. cbn [playoffs].
  by rewrite (filter_none (λ r, isRegular r = 0%Z) df).
Qed.

(** Without a regular-season game the regular side divides by zero
    unguarded: its home win rate is NaN, like its means. *)
Theorem regular_empty (df : DataFrame) :
  Forall (λ r, isRegular r ≠ 1%Z) df →
  regular (get_playoffs_vs_regular df)
  = {| ps_games := 0; ps_avg_total := NaN; ps_avg_home := NaN;
       ps_avg_away := NaN; ps_home_win_rate := NaN |}.
Proof.
  intros Hnone. unfold get_playoffs_vs_regular. cbn [regular].
  by rewrite (filter_none (λ r, isRegular r = 1%Z) df).
Qed.

(** With a game on each side, both home win rates are numbers between 0
    and 100. *)
Theorem partition_rates (df : DataFrame) :
  Exists (λ r, isRegular r = 1%Z) df →
  Exists (λ r, isRegular r = 0%Z) df →
  (∃ q, ps_home_win_rate (regular (get_playoffs_vs_regular df)) = Real q
        ∧ 0 <= q <= 100) ∧
  (∃ q, ps_home_win_rate (playoffs (get_playoffs_vs_regular df)) = Real q
        ∧ 0 <= q <= 100).
Proof.
  intros (r1 & Hr1 & H1)%Exists_exists (r0 & Hr0 & H0)%Exists_exists.
  unfold get_playoffs_vs_regular. cbn [regular playoffs ps_home_win_rate].
  assert (0 < length (filter (λ r, isRegular r = 1%Z) df))%nat as Hreg.
  { apply (elem_of_length_pos r1). by apply list_elem_of_filter. }
  assert (0 < length (filter (λ r, isRegular r = 0%Z) df))%nat as Hplay.
  { apply (elem_of_length_pos r0). by apply list_elem_of_filter. }
  split.
  - rewrite rate_count by done. eexists. split; [reflexivity|].
    apply percentage_bounds; [done|apply length_filter].
  - rewrite rate_count by lia. eexists. split; [reflexivity|].
    apply percentage_bounds; [lia|].
    pose proof (length_filter home_won (filter (λ r, isRegular r = 0%Z) df)).
    lia.
Qed.
End PartitionRates.

Lemma playoffs_empty_witness :
  Forall (λ r, isRegular r ≠ 0) (take 2 sample_df) ∧
  ps_home_win_rate (playoffs (get_playoffs_vs_regular (take 2 sample_df)))
  = Real 0.
Proof.
  assert (Forall (λ r, isRegular r ≠ 0) (take 2 sample_df)) as Hnone
    by by repeat constructor.
  split; [exact Hnone|]. by rewrite (playoffs_empty _ Hnone).
Defined.

Lemma regular_empty_witness :
  Forall (λ r, isRegular r ≠ 1) (drop 2 sample_df) ∧
  ps_home_win_rate (regular (get_playoffs_vs_regular (drop 2 sample_df)))
  = NaN.
Proof.
  assert (Forall (λ r, isRegular r ≠ 1) (drop 2 sample_df)) as Hnone
    by by repeat constructor.
  split; [exact Hnone|]. by rewrite (regular_empty _ Hnone).
Defined.

Lemma partition_rates_witness :
  Exists (λ r, isRegular r = 1) sample_df ∧
  Exists (λ r, isRegular r = 0) sample_df ∧
  ∃ q, ps_home_win_rate (playoffs (get_playoffs_vs_regular sample_df)) = Real q.
Proof.
  assert (Exists (λ r, isRegular r = 1) sample_df) as H1 by by left.
  assert (Exists (λ r, isRegular r = 0) sample_df) as H0
    by by right; right; left.
  split; [exact H1|]. split; [exact H0|].
  destruct (partition_rates sample_df H1 H0) as [_ (q & Hq & _)].
  by exists q.
Defined.

(** ** High-scoring games, further *)

(** On a frame built by [load_data] from a file whose score sums fit
    int64, every row of the high-scoring list shows a total that is the
    sum of its two scores, for a game of season 2000 or later. *)
Theorem high_scoring_loaded (csv : list csv_row) (g : high_game) :
  Forall scores_fit csv →
  g ∈ get_high_scoring_games (load_data csv) →
  hg_total g = hg_home_points g + hg_away_points g ∧ 2000 ≤ hg_season g.
Proof.
  intros Hfit (r & -> & Hr)%list_elem_of_fmap. simpl.
  unfold top_games, nlargest in Hr. apply subseteq_take in Hr.
  rewrite (sort_desc_Permutation totalPoints) in Hr.
  pose proof (load_data_seasons csv) as Hseasons.
  pose proof (load_data_total csv Hfit) as Htotals.
  rewrite Forall_forall in Hseasons, Htotals.
  split; [by apply Htotals|by apply Hseasons].
Qed.

Lemma high_scoring_loaded_witness :
  Forall scores_fit recent_csv ∧
  ∃ g, g ∈ get_high_scoring_games (load_data recent_csv)
       ∧ hg_total g = hg_home_points g + hg_away_points g.
Proof.
  assert (Forall scores_fit recent_csv) as Hfit
    by compute_done.
  split; [exact Hfit|]. eexists. split; [by left|].
  apply (high_scoring_loaded recent_csv _ Hfit). by left.
Defined.
